(** * host/flush_tracer.go: the trace envelope, the tracer callbacks and the
      delivery of envelopes to the data stream.

    The Go file is embedded shallowly.  Everything the Go code reaches
    through a package-level or shared object (the wall clock, the default
    [slog] logger, the stream client behind [h.cfg.DataStream], the
    submitted-traces counter, context timers) lives in an explicit [World]
    that is threaded through a small state monad. *)

From Stdlib Require Import ZArith Lia String Ascii List.
From Stdlib.Strings Require Import Byte.
From stdpp Require Import base gmap strings list.

Local Open Scope string_scope.
Local Open Scope list_scope.
Local Open Scope Z_scope.

(** ** Values of the Go standard library used by the file *)

(** [error]: only the message matters to this file. *)
Definition error := string.

(** [peer.ID] and [protocol.ID].  A peer identity is represented by its
    [String()] rendering, which is a bijective encoding of the identity. *)
Definition peer_ID := string.
Definition protocol_ID := string.
Definition peer_ID_String (p : peer_ID) : string := p.

(** [time.Duration] counts nanoseconds. *)
Definition Duration := Z.
Definition time_Nanosecond : Duration := 1.
Definition time_Second : Duration := 1000000000 * time_Nanosecond.

(** [time.Time], as seconds and nanoseconds since the Unix epoch. *)
Record Time := mkTime { t_sec : Z; t_nsec : Z }.

(** [time.Unix(sec, nsec)]: [nsec] outside [0, 1e9) is folded into [sec];
    Go's [/] truncates towards zero, hence [Z.quot]. *)
Definition time_Unix (sec nsec : Z) : Time :=
  if (nsec <? 0) || (nsec >=? 1000000000) then
    let n := Z.quot nsec 1000000000 in
    let sec := sec + n in
    let nsec := nsec - n * 1000000000 in
    if nsec <? 0 then mkTime (sec - 1) (nsec + 1000000000)
    else mkTime sec nsec
  else mkTime sec nsec.

(** [t.UnixNano()]. *)
Definition UnixNano (t : Time) : Z := t_sec t * 1000000000 + t_nsec t.

(** [hex.EncodeToString]: two digits of [hextable] per byte, high nibble
    first. *)
Definition hextable : string := "0123456789abcdef".

Definition hexdigit (i : N) : ascii :=
  match String.get (N.to_nat i) hextable with
  | Some c => c
  | None => "0"%char
  end.

Fixpoint hex_EncodeToString (src : list byte) : string :=
  match src with
  | [] => EmptyString
  | v :: rest =>
      String (hexdigit (N.shiftr (Byte.to_N v) 4))
        (String (hexdigit (N.land (Byte.to_N v) 15))
           (hex_EncodeToString rest))
  end.

(** A character of a lowercase hexadecimal rendering. *)
Definition is_lower_hex (c : ascii) : bool :=
  let n := N_of_ascii c in
  ((48 <=? n) && (n <=? 57) || (97 <=? n) && (n <=? 102))%N.

Definition lower_hex (s : string) : bool :=
  forallb is_lower_hex (list_ascii_of_string s).

(** [[]byte(s)] for a Go string [s]. *)
Definition bytes_of_string (s : string) : list byte := list_byte_of_string s.

(** [hex.DecodeString], which readers of the records apply to the
    identifiers: [reverseHexTable] accepts both cases of the letters; an
    odd length or any other character is an error ([None]). *)
Definition fromHexChar (c : ascii) : option N :=
  let n := N_of_ascii c in
  if ((48 <=? n) && (n <=? 57))%N then Some (n - 48)%N
  else if ((97 <=? n) && (n <=? 102))%N then Some (n - 97 + 10)%N
  else if ((65 <=? n) && (n <=? 70))%N then Some (n - 65 + 10)%N
  else None.

Fixpoint hex_DecodeString (s : string) : option (list byte) :=
  match s with
  | EmptyString => Some []
  | String p (String q rest) =>
      match fromHexChar p, fromHexChar q with
      | Some a, Some b =>
          match Byte.of_N (N.lor (N.shiftl a 4) b), hex_DecodeString rest with
          | Some v, Some dst => Some (v :: dst)
          | _, _ => None
          end
      | _, _ => None
      end
  | String _ EmptyString => None
  end.

(** [uuid.UUID] is 16 bytes; [String()] prints them in hexadecimal in
    groups of 4-2-2-2-6 bytes separated by dashes. *)
Definition uuid_UUID := list byte.

Definition uuid_String (u : uuid_UUID) : string :=
  (hex_EncodeToString (firstn 4 u) ++ "-" ++
   hex_EncodeToString (firstn 2 (skipn 4 u)) ++ "-" ++
   hex_EncodeToString (firstn 2 (skipn 6 u)) ++ "-" ++
   hex_EncodeToString (firstn 2 (skipn 8 u)) ++ "-" ++
   hex_EncodeToString (skipn 10 u))%string.

(** [context.Context]: only the deadline (Unix nanoseconds) is observed. *)
Record Context := mkContext { Deadline : option Z }.

Definition context_TODO : Context := mkContext None.

(** Records written through [log/slog]. *)
Inductive Level := LevelDebug | LevelInfo | LevelWarn | LevelError.

Record LogRecord := mkLogRecord {
  log_level : Level;
  log_msg : string;
  log_err : error
}.

(** ** The event taxonomy *)

(** Modelled from the spec: the [EventType] constants are declared in
    another file of the package; section 3 of the specification lists them
    as a closed enumeration with a lifecycle and a wire family. *)
Inductive EventType :=
| EventTypeAddPeer
| EventTypeRemovePeer
| EventTypeJoin
| EventTypeLeave
| EventTypeGraft
| EventTypePrune
| EventTypeValidateMessage
| EventTypeDeliverMessage
| EventTypeRejectMessage
| EventTypeDuplicateMessage
| EventTypeThrottlePeer
| EventTypeUndeliverableMessage
| EventTypePublishMessage
| EventTypeRecvRPC
| EventTypeSendRPC
| EventTypeDropRPC.

(** ** Messages and notifications handed in by the pubsub runtime *)

(** [pubsub.Message] with its embedded [pb.Message]: [Topic] is an optional
    protobuf field, [Size] stands for the result of the [Size()] method. *)
Record Message := mkMessage {
  ID : string;
  ReceivedFrom : peer_ID;
  Local : bool;
  Topic : option string;
  Seqno : list byte;
  Size : Z
}.

Definition Message_GetTopic (msg : Message) : string :=
  match Topic msg with Some t => t | None => "" end.

Definition Message_GetSeqno (msg : Message) : list byte := Seqno msg.

(** [pubsubpb.TraceEvent_Type] is an [int32] enumeration. *)
Definition TraceEvent_PUBLISH_MESSAGE : Z := 0.
Definition TraceEvent_REJECT_MESSAGE : Z := 1.
Definition TraceEvent_DUPLICATE_MESSAGE : Z := 2.
Definition TraceEvent_DELIVER_MESSAGE : Z := 3.
Definition TraceEvent_ADD_PEER : Z := 4.
Definition TraceEvent_REMOVE_PEER : Z := 5.
Definition TraceEvent_RECV_RPC : Z := 6.
Definition TraceEvent_SEND_RPC : Z := 7.
Definition TraceEvent_DROP_RPC : Z := 8.
Definition TraceEvent_JOIN : Z := 9.
Definition TraceEvent_LEAVE : Z := 10.
Definition TraceEvent_GRAFT : Z := 11.
Definition TraceEvent_PRUNE : Z := 12.

Record pb_PublishMessage := mkPublishMessage {
  pm_MessageID : list byte;
  pm_Topic : option string
}.

(** ** State passing *)

Definition State (S A : Type) : Type := S -> A * S.

Definition ret {S A : Type} (a : A) : State S A := fun s => (a, s).

Definition bind {S A B : Type} (c : State S A) (k : A -> State S B) : State S B :=
  fun s => let (a, s') := c s in k a s'.

Notation "x <- c ;; k" := (bind c (fun x => k))
  (at level 100, c at next level, k at level 200, right associativity).

Definition exec {S A : Type} (c : State S A) (s : S) : S := snd (c s).

Section Tracer.

(** The RPC metadata normalizer lives in another file of the package; the
    tracer only passes its result on as a payload. *)
Context {RPCMeta pb_RPCMeta : Type}.
Variable newRPCMeta : list byte -> option pb_RPCMeta -> RPCMeta.

(** [pubsub.RPC], the argument of the three raw RPC callbacks. *)
Context {pubsub_RPC : Type}.

Record pb_RecvRPC := mkRecvRPC {
  rr_ReceivedFrom : list byte;
  rr_Meta : option pb_RPCMeta
}.

Record pb_SendRPC := mkSendRPC {
  sr_SendTo : list byte;
  sr_Meta : option pb_RPCMeta
}.

Record pb_DropRPC := mkDropRPC {
  dr_SendTo : list byte;
  dr_Meta : option pb_RPCMeta
}.

(** [pubsubpb.TraceEvent]: every field is an optional protobuf field. *)
Record pb_TraceEvent := mkPbTraceEvent {
  te_Type : option Z;
  te_Timestamp : option Z;
  te_PublishMessage : option pb_PublishMessage;
  te_RecvRPC : option pb_RecvRPC;
  te_SendRPC : option pb_SendRPC;
  te_DropRPC : option pb_DropRPC
}.

(** The generated getters accept a nil receiver and a nil field and return
    the zero value then. *)
Definition GetType (evt : option pb_TraceEvent) : Z :=
  match evt with
  | Some e => match te_Type e with Some t => t | None => TraceEvent_PUBLISH_MESSAGE end
  | None => TraceEvent_PUBLISH_MESSAGE
  end.

Definition GetTimestamp (evt : option pb_TraceEvent) : Z :=
  match evt with
  | Some e => match te_Timestamp e with Some t => t | None => 0 end
  | None => 0
  end.

Definition GetPublishMessage (evt : option pb_TraceEvent) : option pb_PublishMessage :=
  match evt with Some e => te_PublishMessage e | None => None end.

Definition GetRecvRPC (evt : option pb_TraceEvent) : option pb_RecvRPC :=
  match evt with Some e => te_RecvRPC e | None => None end.

Definition GetSendRPC (evt : option pb_TraceEvent) : option pb_SendRPC :=
  match evt with Some e => te_SendRPC e | None => None end.

Definition GetDropRPC (evt : option pb_TraceEvent) : option pb_DropRPC :=
  match evt with Some e => te_DropRPC e | None => None end.

Definition GetMessageID (m : option pb_PublishMessage) : list byte :=
  match m with Some m => pm_MessageID m | None => [] end.

Definition PublishMessage_GetTopic (m : option pb_PublishMessage) : string :=
  match m with
  | Some m => match pm_Topic m with Some t => t | None => "" end
  | None => ""
  end.

Definition GetReceivedFrom (m : option pb_RecvRPC) : list byte :=
  match m with Some m => rr_ReceivedFrom m | None => [] end.

Definition RecvRPC_GetMeta (m : option pb_RecvRPC) : option pb_RPCMeta :=
  match m with Some m => rr_Meta m | None => None end.

Definition SendRPC_GetSendTo (m : option pb_SendRPC) : list byte :=
  match m with Some m => sr_SendTo m | None => [] end.

Definition SendRPC_GetMeta (m : option pb_SendRPC) : option pb_RPCMeta :=
  match m with Some m => sr_Meta m | None => None end.

Definition DropRPC_GetSendTo (m : option pb_DropRPC) : list byte :=
  match m with Some m => dr_SendTo m | None => [] end.

Definition DropRPC_GetMeta (m : option pb_DropRPC) : option pb_RPCMeta :=
  match m with Some m => dr_Meta m | None => None end.

(** ** The envelope *)

(** Go's [any], restricted to the dynamic types the tracer stores in a
    payload; [AOther] stands for a value of any other dynamic type that a
    caller of the exported [FlushTrace] may pass. *)
#[warnings="-register-all"]
Inductive any :=
| AString (s : string)
| ABytes (b : list byte)
| ABool (b : bool)
| AInt (n : Z)
| APeerID (p : peer_ID)
| AProtocolID (p : protocol_ID)
| AMap (m : gmap string any)
| ARPCMeta (r : RPCMeta)
| AOther (description : string).

Record TraceEvent := mkTraceEvent {
  Type_ : EventType;
  PeerID : peer_ID;
  Timestamp : Time;
  Payload : any
}.

(** ** The world the tracer runs in *)

(** The state of the external stream client is opaque to the tracer. *)
Context {Sink : Type}.

(** State that any code of the process can reach: the wall clock (Unix
    nanoseconds), the records written to the default logger (oldest first)
    and the stream client.  The clock is what a read of it returns; how far
    it moves during a call is decided by the stream client alone, the time
    the host's own steps take is not modelled, and no statement below bounds
    a duration from above. *)
Record Outside := mkOutside {
  clock : Z;
  slog : list LogRecord;
  sink : Sink
}.

(** [Outside] together with what only the host itself touches: the
    submitted-traces counter, the number of context timers created and not
    yet released, and the envelopes handed to the stream client so far
    (oldest first), each with the context of its publish call. *)
Record World := mkWorld {
  outside : Outside;
  meterSubmittedTraces : Z;
  live_contexts : nat;
  puts : list (Context * TraceEvent)
}.

Definition M (A : Type) : Type := State World A.

(** Code that only touches [Outside] runs unchanged inside the host. *)
Definition lift_outside {A : Type} (c : State Outside A) : M A :=
  fun w =>
    let (a, o) := c (outside w) in
    (a, mkWorld o (meterSubmittedTraces w) (live_contexts w) (puts w)).

(** [defer d] before [body]: [d] runs when [body] has returned, whichever
    way it returned. *)
Definition defer {A : Type} (d : M unit) (body : M A) : M A :=
  a <- body ;; _ <- d ;; ret a.

(** *** Library calls with an effect *)

Definition time_Now : State Outside Time :=
  fun o => (time_Unix 0 (clock o), o).

Definition slog_Warn (msg : string) (err : error) : State Outside unit :=
  fun o => (tt, mkOutside (clock o) (slog o ++ [mkLogRecord LevelWarn msg err]) (sink o)).

(** [context.WithTimeout(parent, timeout)] arms a timer for
    [time.Now().Add(timeout)], or for the parent's deadline when that is
    earlier; the returned cancel function is [cancel] below. *)
Definition context_WithTimeout (parent : Context) (timeout : Duration) : M Context :=
  fun w =>
    let d := clock (outside w) + timeout in
    let d := match Deadline parent with Some cur => Z.min cur d | None => d end in
    (mkContext (Some d),
     mkWorld (outside w) (meterSubmittedTraces w) (S (live_contexts w)) (puts w)).

Definition cancel (ctx : Context) : M unit :=
  fun w =>
    (tt, mkWorld (outside w) (meterSubmittedTraces w) (Nat.pred (live_contexts w)) (puts w)).

(** [h.meterSubmittedTraces.Add(ctx, incr)]. *)
Definition meterSubmittedTraces_Add (ctx : Context) (incr : Z) : M unit :=
  fun w =>
    (tt, mkWorld (outside w) (meterSubmittedTraces w + incr) (live_contexts w) (puts w)).

(** External functions: [json.Marshal] on an envelope and
    [uuid.NewUUID]. *)
Variable json_Marshal : TraceEvent -> list byte + error.
Variable uuid_NewUUID : State Outside (uuid_UUID + error).

(** ** The envelope as a stream record *)

Definition PartitionKey (t : TraceEvent) : State Outside string :=
  r <- uuid_NewUUID ;;
  match r with
  | inr err => ret (peer_ID_String (PeerID t))
  | inl u => ret (uuid_String u)
  end.

Definition ExplicitHashKey (t : TraceEvent) : option string := None.

(** A nil slice is the empty list. *)
Definition Data (t : TraceEvent) : State Outside (list byte) :=
  match json_Marshal t with
  | inr err =>
      _ <- slog_Warn "Failed to marshal trace event" err ;;
      ret []
  | inl data => ret data
  end.

(** ** The host *)

(** The stream client behind [h.cfg.DataStream]: an interface with the
    method [PutEvent(ctx, evt) error]; [None] is a nil error.  The call is
    synchronous: the clock of the [Outside] it returns is the time at which
    it returned. *)
Record Stream := mkStream {
  PutEvent : Context -> TraceEvent -> State Outside (option error)
}.

Record Config := mkConfig { DataStream : Stream }.

Record Host := mkHost {
  host_ID : peer_ID;
  cfg : Config
}.

(** The call [h.cfg.DataStream.PutEvent(ctx, evt)], noted in [puts]. *)
Definition DataStream_PutEvent (h : Host) (ctx : Context) (evt : TraceEvent) : M (option error) :=
  fun w =>
    let (r, o) := PutEvent (DataStream (cfg h)) ctx evt (outside w) in
    (r, mkWorld o (meterSubmittedTraces w) (live_contexts w) (puts w ++ [(ctx, evt)])).

Definition FlushTraceWithTimestamp (h : Host) (evtType : EventType)
    (timestamp : Time) (payload : any) : M unit :=
  let evt := mkTraceEvent evtType (host_ID h) timestamp payload in
  ctx <- context_WithTimeout context_TODO (10 * time_Second) ;;
  defer (cancel ctx) (
    err <- DataStream_PutEvent h ctx evt ;;
    match err with
    | Some err => lift_outside (slog_Warn "Failed to put trace event payload" err)
    | None => meterSubmittedTraces_Add ctx 1
    end).

Definition FlushTrace (h : Host) (evtType : EventType) (payload : any) : M unit :=
  now <- lift_outside time_Now ;;
  FlushTraceWithTimestamp h evtType now payload.

(** ** The lifecycle callbacks ([pubsub.RawTracer]) *)

Definition AddPeer (h : Host) (p : peer_ID) (proto : protocol_ID) : M unit :=
  FlushTrace h EventTypeAddPeer (AMap {[
    "PeerID" := APeerID p;
    "Protocol" := AProtocolID proto
  ]}).

Definition RemovePeer (h : Host) (p : peer_ID) : M unit :=
  FlushTrace h EventTypeRemovePeer (AMap {[
    "PeerID" := APeerID p
  ]}).

Definition Join (h : Host) (topic : string) : M unit :=
  FlushTrace h EventTypeJoin (AMap {[
    "Topic" := AString topic
  ]}).

Definition Leave (h : Host) (topic : string) : M unit :=
  FlushTrace h EventTypeLeave (AMap {[
    "Topic" := AString topic
  ]}).

Definition Graft (h : Host) (p : peer_ID) (topic : string) : M unit :=
  FlushTrace h EventTypeGraft (AMap {[
    "PeerID" := APeerID p;
    "Topic" := AString topic
  ]}).

Definition Prune (h : Host) (p : peer_ID) (topic : string) : M unit :=
  FlushTrace h EventTypePrune (AMap {[
    "PeerID" := APeerID p;
    "Topic" := AString topic
  ]}).

Definition ValidateMessage (h : Host) (msg : Message) : M unit :=
  FlushTrace h EventTypeValidateMessage (AMap {[
    "PeerID" := APeerID (ReceivedFrom msg);
    "Topic" := AString (Message_GetTopic msg);
    "MsgID" := AString (hex_EncodeToString (bytes_of_string (ID msg)));
    "Local" := ABool (Local msg);
    "MsgSize" := AInt (Size msg);
    "SeqNo" := AString (hex_EncodeToString (Message_GetSeqno msg))
  ]}).

Definition DeliverMessage (h : Host) (msg : Message) : M unit :=
  FlushTrace h EventTypeDeliverMessage (AMap {[
    "PeerID" := APeerID (ReceivedFrom msg);
    "Topic" := AString (Message_GetTopic msg);
    "MsgID" := AString (hex_EncodeToString (bytes_of_string (ID msg)));
    "Local" := ABool (Local msg);
    "MsgSize" := AInt (Size msg);
    "Seq" := AString (hex_EncodeToString (Message_GetSeqno msg))
  ]}).

Definition RejectMessage (h : Host) (msg : Message) (reason : string) : M unit :=
  FlushTrace h EventTypeRejectMessage (AMap {[
    "PeerID" := APeerID (ReceivedFrom msg);
    "Topic" := AString (Message_GetTopic msg);
    "MsgID" := AString (hex_EncodeToString (bytes_of_string (ID msg)));
    "Reason" := AString reason;
    "Local" := ABool (Local msg);
    "MsgSize" := AInt (Size msg);
    "Seq" := AString (hex_EncodeToString (Message_GetSeqno msg))
  ]}).

Definition DuplicateMessage (h : Host) (msg : Message) : M unit :=
  FlushTrace h EventTypeDuplicateMessage (AMap {[
    "PeerID" := APeerID (ReceivedFrom msg);
    "Topic" := AString (Message_GetTopic msg);
    "MsgID" := AString (hex_EncodeToString (bytes_of_string (ID msg)));
    "Local" := ABool (Local msg);
    "MsgSize" := AInt (Size msg);
    "Seq" := AString (hex_EncodeToString (Message_GetSeqno msg))
  ]}).

Definition ThrottlePeer (h : Host) (p : peer_ID) : M unit :=
  FlushTrace h EventTypeThrottlePeer (AMap {[
    "PeerID" := APeerID p
  ]}).

(** Handled in the event tracer, [Trace] below. *)
Definition RecvRPC (h : Host) (rpc : pubsub_RPC) : M unit :=
  ret tt.

Definition SendRPC (h : Host) (rpc : pubsub_RPC) (p : peer_ID) : M unit :=
  ret tt.

Definition DropRPC (h : Host) (rpc : pubsub_RPC) (p : peer_ID) : M unit :=
  ret tt.

Definition UndeliverableMessage (h : Host) (msg : Message) : M unit :=
  FlushTrace h EventTypeUndeliverableMessage (AMap {[
    "PeerID" := APeerID (ReceivedFrom msg);
    "Topic" := AString (Message_GetTopic msg);
    "MsgID" := AString (hex_EncodeToString (bytes_of_string (ID msg)));
    "Local" := ABool (Local msg)
  ]}).

(** ** The wire-trace entry point ([pubsub.EventTracer]) *)

(** The [switch] has no default case: any other kind falls through. *)
Definition Trace (h : Host) (evt : option pb_TraceEvent) : M unit :=
  let ts := time_Unix 0 (GetTimestamp evt) in
  let kind := GetType evt in
  if kind =? TraceEvent_PUBLISH_MESSAGE then
    FlushTraceWithTimestamp h EventTypePublishMessage ts (AMap {[
      "MsgID" := ABytes (GetMessageID (GetPublishMessage evt));
      "Topic" := AString (PublishMessage_GetTopic (GetPublishMessage evt))
    ]})
  else if kind =? TraceEvent_RECV_RPC then
    let payload := newRPCMeta (GetReceivedFrom (GetRecvRPC evt)) (RecvRPC_GetMeta (GetRecvRPC evt)) in
    FlushTraceWithTimestamp h EventTypeRecvRPC ts (ARPCMeta payload)
  else if kind =? TraceEvent_SEND_RPC then
    let payload := newRPCMeta (SendRPC_GetSendTo (GetSendRPC evt)) (SendRPC_GetMeta (GetSendRPC evt)) in
    FlushTraceWithTimestamp h EventTypeSendRPC ts (ARPCMeta payload)
  else if kind =? TraceEvent_DROP_RPC then
    let payload := newRPCMeta (DropRPC_GetSendTo (GetDropRPC evt)) (DropRPC_GetMeta (GetDropRPC evt)) in
    FlushTraceWithTimestamp h EventTypeDropRPC ts (ARPCMeta payload)
  else
    ret tt.

(** ** The callback surface as data *)

(** One invocation of a [pubsub.RawTracer] method by the runtime. *)
Inductive Callback :=
| CallAddPeer (p : peer_ID) (proto : protocol_ID)
| CallRemovePeer (p : peer_ID)
| CallJoin (topic : string)
| CallLeave (topic : string)
| CallGraft (p : peer_ID) (topic : string)
| CallPrune (p : peer_ID) (topic : string)
| CallValidateMessage (msg : Message)
| CallDeliverMessage (msg : Message)
| CallRejectMessage (msg : Message) (reason : string)
| CallDuplicateMessage (msg : Message)
| CallThrottlePeer (p : peer_ID)
| CallRecvRPC (rpc : pubsub_RPC)
| CallSendRPC (rpc : pubsub_RPC) (p : peer_ID)
| CallDropRPC (rpc : pubsub_RPC) (p : peer_ID)
| CallUndeliverableMessage (msg : Message).

Definition invoke (h : Host) (c : Callback) : M unit :=
  match c with
  | CallAddPeer p proto => AddPeer h p proto
  | CallRemovePeer p => RemovePeer h p
  | CallJoin topic => Join h topic
  | CallLeave topic => Leave h topic
  | CallGraft p topic => Graft h p topic
  | CallPrune p topic => Prune h p topic
  | CallValidateMessage msg => ValidateMessage h msg
  | CallDeliverMessage msg => DeliverMessage h msg
  | CallRejectMessage msg reason => RejectMessage h msg reason
  | CallDuplicateMessage msg => DuplicateMessage h msg
  | CallThrottlePeer p => ThrottlePeer h p
  | CallRecvRPC rpc => RecvRPC h rpc
  | CallSendRPC rpc p => SendRPC h rpc p
  | CallDropRPC rpc p => DropRPC h rpc p
  | CallUndeliverableMessage msg => UndeliverableMessage h msg
  end.

(** The three raw RPC callbacks, as opposed to the twelve lifecycle ones. *)
Definition is_rpc_callback (c : Callback) : bool :=
  match c with
  | CallRecvRPC _ | CallSendRPC _ _ | CallDropRPC _ _ => true
  | _ => false
  end.

End Tracer.

(** ** What the specification documents for the lifecycle surface

    These two definitions follow the words of the specification (the table
    of its section 4.2), not the code; the callbacks above are compared with
    them. *)

(** "The resulting envelope's Type matches the invoking method." *)
Definition documented_type {pubsub_RPC : Type} (c : @Callback pubsub_RPC) : option EventType :=
  match c with
  | CallAddPeer _ _ => Some EventTypeAddPeer
  | CallRemovePeer _ => Some EventTypeRemovePeer
  | CallJoin _ => Some EventTypeJoin
  | CallLeave _ => Some EventTypeLeave
  | CallGraft _ _ => Some EventTypeGraft
  | CallPrune _ _ => Some EventTypePrune
  | CallValidateMessage _ => Some EventTypeValidateMessage
  | CallDeliverMessage _ => Some EventTypeDeliverMessage
  | CallRejectMessage _ _ => Some EventTypeRejectMessage
  | CallDuplicateMessage _ => Some EventTypeDuplicateMessage
  | CallThrottlePeer _ => Some EventTypeThrottlePeer
  | CallUndeliverableMessage _ => Some EventTypeUndeliverableMessage
  | CallRecvRPC _ | CallSendRPC _ _ | CallDropRPC _ _ => None
  end.

(** The "Payload fields" column; the wire family is not in the table. *)
Definition documented_fields (ty : EventType) : gset string :=
  match ty with
  | EventTypeAddPeer => {[ "PeerID"; "Protocol" ]}
  | EventTypeRemovePeer => {[ "PeerID" ]}
  | EventTypeJoin => {[ "Topic" ]}
  | EventTypeLeave => {[ "Topic" ]}
  | EventTypeGraft => {[ "PeerID"; "Topic" ]}
  | EventTypePrune => {[ "PeerID"; "Topic" ]}
  | EventTypeValidateMessage =>
      {[ "PeerID"; "Topic"; "MsgID"; "Local"; "MsgSize"; "SeqNo" ]}
  | EventTypeDeliverMessage =>
      {[ "PeerID"; "Topic"; "MsgID"; "Local"; "MsgSize"; "Seq" ]}
  | EventTypeRejectMessage =>
      {[ "PeerID"; "Topic"; "MsgID"; "Local"; "MsgSize"; "Seq"; "Reason" ]}
  | EventTypeDuplicateMessage =>
      {[ "PeerID"; "Topic"; "MsgID"; "Local"; "MsgSize"; "Seq" ]}
  | EventTypeThrottlePeer => {[ "PeerID" ]}
  | EventTypeUndeliverableMessage => {[ "PeerID"; "Topic"; "MsgID"; "Local" ]}
  | EventTypePublishMessage | EventTypeRecvRPC
  | EventTypeSendRPC | EventTypeDropRPC => ∅
  end.

(** ** Entry points, kinds and observations used in the statements *)

Section Observations.

Context {RPCMeta pb_RPCMeta pubsub_RPC Sink : Type}.
Variable newRPCMeta : list byte -> option pb_RPCMeta -> RPCMeta.

(** The kinds [Trace] has a case for. *)
Definition handled_kind (kind : Z) : bool :=
  (kind =? TraceEvent_PUBLISH_MESSAGE) || (kind =? TraceEvent_RECV_RPC) ||
  (kind =? TraceEvent_SEND_RPC) || (kind =? TraceEvent_DROP_RPC).

(** Every way the runtime enters the adapter. *)
Inductive EntryPoint :=
| Raw (c : @Callback pubsub_RPC)
| Wire (evt : option (@pb_TraceEvent pb_RPCMeta)).

Definition enter (h : @Host RPCMeta Sink) (ep : EntryPoint) : M unit :=
  match ep with
  | Raw c => invoke h c
  | Wire evt => Trace newRPCMeta h evt
  end.

(** Entry points that the code turns into an envelope. *)
Definition emits (ep : EntryPoint) : bool :=
  match ep with
  | Raw c => negb (is_rpc_callback c)
  | Wire evt => handled_kind (GetType evt)
  end.


(** The context [FlushTraceWithTimestamp] creates when entered in [w]. *)
Definition publish_ctx (w : @World RPCMeta Sink) : Context :=
  mkContext (Some (clock (outside w) + 10 * time_Second)).

(** The warning written when the publish fails. *)
Definition put_warning (err : error) : LogRecord :=
  mkLogRecord LevelWarn "Failed to put trace event payload" err.

(** The envelope [FlushTraceWithTimestamp] builds. *)
Definition envelope (h : @Host RPCMeta Sink) (evtType : EventType)
    (timestamp : Time) (payload : @any RPCMeta) : @TraceEvent RPCMeta :=
  mkTraceEvent evtType (host_ID h) timestamp payload.

(** What the stream client answers to the publish call made from [w], and
    the [Outside] it leaves. *)
Definition publish_result (h : @Host RPCMeta Sink) (evtType : EventType)
    (timestamp : Time) (payload : @any RPCMeta) (w : World) : option error :=
  fst (PutEvent (DataStream (cfg h)) (publish_ctx w)
         (envelope h evtType timestamp payload) (outside w)).

Definition publish_outside (h : @Host RPCMeta Sink) (evtType : EventType)
    (timestamp : Time) (payload : @any RPCMeta) (w : World) : Outside :=
  snd (PutEvent (DataStream (cfg h)) (publish_ctx w)
         (envelope h evtType timestamp payload) (outside w)).

(** The event type section 4.3 of the specification gives for each kind of
    notification; this follows the words of the specification, and
    [Trace] is compared with it. *)
Definition documented_kind (kind : Z) : option EventType :=
  if kind =? TraceEvent_PUBLISH_MESSAGE then Some EventTypePublishMessage
  else if kind =? TraceEvent_RECV_RPC then Some EventTypeRecvRPC
  else if kind =? TraceEvent_SEND_RPC then Some EventTypeSendRPC
  else if kind =? TraceEvent_DROP_RPC then Some EventTypeDropRPC
  else None.

(** The event type documented for an entry, if it is to be reported. *)
Definition reported_type (ep : EntryPoint) : option EventType :=
  match ep with
  | Raw c => documented_type c
  | Wire evt => documented_kind (GetType evt)
  end.

(** A run of the adapter: the runtime enters it once per element, in
    order. *)
Fixpoint run_all (h : @Host RPCMeta Sink) (eps : list EntryPoint) : @M RPCMeta Sink unit :=
  match eps with
  | [] => ret tt
  | ep :: rest => _ <- enter h ep ;; run_all h rest
  end.

(** How many entries of a run the code turns into an envelope. *)
Definition count_emitting (eps : list EntryPoint) : nat :=
  length (List.filter emits eps).

(** The payload map of the envelope handed to the stream client last. *)
Definition last_payload (w : @World RPCMeta Sink) : option (gmap string (@any RPCMeta)) :=
  match last (puts w) with
  | Some (_, evt) =>
      match Payload evt with
      | AMap m => Some m
      | _ => None
      end
  | None => None
  end.

(** The message a message callback is about. *)
Definition callback_message (c : @Callback pubsub_RPC) : option Message :=
  match c with
  | CallValidateMessage msg | CallDeliverMessage msg | CallRejectMessage msg _
  | CallDuplicateMessage msg | CallUndeliverableMessage msg => Some msg
  | _ => None
  end.

(** A stream client that accepts, respectively refuses, every record. *)
Definition always_accepts (s : @Stream RPCMeta Sink) : Prop :=
  forall ctx evt o, fst (PutEvent s ctx evt o) = None.

Definition always_fails (s : @Stream RPCMeta Sink) : Prop :=
  forall ctx evt o, fst (PutEvent s ctx evt o) <> None.

End Observations.

(** ** Concrete collaborators

    Closed instances of what the tracer is parameterised by, used to run
    the definitions on concrete inputs. *)

(** A normalizer that keeps only the counterparty. *)
Definition sample_newRPCMeta (pid : list byte) (meta : option unit) : list byte := pid.

(** How long after a deadline has passed the sample client below notices
    it: a waiting goroutine is woken only once the context is done. *)
Definition wake_up : Duration := 9000000 * time_Nanosecond.

(** A context-aware stream client in front of a sink that answers after
    [latency]: it returns the sink's acceptance when that comes before the
    deadline of [ctx]; otherwise it returns the context's error once it has
    noticed that the deadline has passed, [wake_up] after it.  Its state
    counts the accepted records. *)
Definition timed_stream (latency : Duration) : @Stream (list byte) nat :=
  mkStream (fun ctx evt o =>
    match Deadline ctx with
    | Some d =>
        if clock o + latency <=? d
        then (None, mkOutside (clock o + latency) (slog o) (S (sink o)))
        else (Some "context deadline exceeded",
              mkOutside (Z.max (clock o) d + wake_up) (slog o) (sink o))
    | None => (None, mkOutside (clock o + latency) (slog o) (S (sink o)))
    end).

(** A stream client that rejects every record at once. *)
Definition rejecting_stream : @Stream (list byte) nat :=
  mkStream (fun ctx evt o => (Some "ResourceNotFoundException", o)).

(** A stream client that never looks at its context and returns, with
    success, only when its sink has answered. *)
Definition stubborn_stream (latency : Duration) : @Stream (list byte) nat :=
  mkStream (fun ctx evt o =>
    (None, mkOutside (clock o + latency) (slog o) (S (sink o)))).

Definition sample_host (s : @Stream (list byte) nat) : Host :=
  mkHost "12D3KooWLocalNode" (mkConfig s).

Definition sample_outside : @Outside nat :=
  mkOutside 1700000000000000000 [] 0%nat.

Definition sample_world : @World (list byte) nat :=
  mkWorld sample_outside 0 0%nat [].

Definition sample_message : Message :=
  mkMessage (string_of_list_byte [xab; x12]) "12D3KooWRemotePeer" false (Some "t")
    [x00; x00; x00; x00; x00; x00; x00; x2a] 42.

(** An encoder that, like [json.Marshal], refuses values it has no
    encoding for. *)
Definition sample_Marshal (t : @TraceEvent (list byte)) : list byte + error :=
  match Payload t with
  | AOther d => inr ("json: unsupported type: " ++ d)%string
  | _ => inl (bytes_of_string "{}")
  end.

(** A stream client that ships the envelope as a record: it asks the
    envelope for its body through [Data] and accepts whatever it gets. *)
Definition record_stream : @Stream (list byte) nat :=
  mkStream (fun ctx evt =>
    body <- Data sample_Marshal evt ;;
    fun o => (None, mkOutside (clock o) (slog o) (S (sink o)))).

(** An envelope of the sample host whose payload holds a channel. *)
Definition sample_unencodable : @TraceEvent (list byte) :=
  mkTraceEvent EventTypeJoin "12D3KooWLocalNode" (time_Unix 0 0) (AOther "chan int").

(** A UUID generator that returns a given UUID. *)
Definition fixed_NewUUID (u : uuid_UUID) : State (@Outside nat) (uuid_UUID + error) :=
  fun o => (inl u, o).

Definition sample_envelope (p : peer_ID) : @TraceEvent (list byte) :=
  mkTraceEvent EventTypeJoin p (time_Unix 0 0) (AMap {[ "Topic" := AString "topic-A" ]}).

(** A publish notification for the message with identifier [0xAB12]. *)
Definition sample_publish : option (@pb_TraceEvent unit) :=
  Some (mkPbTraceEvent (Some TraceEvent_PUBLISH_MESSAGE) (Some 1700000000123456789)
          (Some (mkPublishMessage [xab; x12] (Some "t"))) None None None).

(** A GRAFT notification has no case in [Trace]. *)
Definition sample_graft : option (@pb_TraceEvent unit) :=
  Some (mkPbTraceEvent (Some TraceEvent_GRAFT) (Some 1700000000123456789)
          None None None None).

(** A notification with a timestamp but no kind and no body. *)
Definition sample_untyped : option (@pb_TraceEvent unit) :=
  Some (mkPbTraceEvent None (Some 1700000000123456789) None None None None).

(** A run that enters through both surfaces: a join, a raw RPC callback, a
    publish notification, a graft notification and a rejected message. *)
Definition sample_run : list (@EntryPoint unit unit) :=
  [Raw (CallJoin "topic-A"); Raw (CallRecvRPC tt); Wire sample_publish;
   Wire sample_graft; Raw (CallRejectMessage sample_message "invalid-signature")].

(** * Properties *)

Section Properties.

Context {RPCMeta pb_RPCMeta pubsub_RPC Sink : Type}.
Variable newRPCMeta : list byte -> option pb_RPCMeta -> RPCMeta.
Variable json_Marshal : @TraceEvent RPCMeta -> list byte + error.
Variable uuid_NewUUID : State (@Outside Sink) (uuid_UUID + error).

Abbreviation Host := (@Host RPCMeta Sink).
Abbreviation World := (@World RPCMeta Sink).
Abbreviation TraceEvent := (@TraceEvent RPCMeta).
Abbreviation Outside := (@Outside Sink).
Abbreviation Callback := (@Callback pubsub_RPC).
Abbreviation EntryPoint := (@EntryPoint pb_RPCMeta pubsub_RPC).

(** ** Running the delivery operation *)

Lemma FlushTraceWithTimestamp_run (h : Host) evtType timestamp payload (w : World) :
  FlushTraceWithTimestamp h evtType timestamp payload w =
  let ctx := publish_ctx w in
  let evt := envelope h evtType timestamp payload in
  let (r, o) := PutEvent (DataStream (cfg h)) ctx evt (outside w) in
  (tt,
   mkWorld
     match r with
     | Some err => mkOutside (clock o) (slog o ++ [put_warning err]) (sink o)
     | None => o
     end
     match r with
     | Some _ => meterSubmittedTraces w
     | None => meterSubmittedTraces w + 1
     end
     (live_contexts w)
     (puts w ++ [(ctx, evt)])).
Proof.
  unfold FlushTraceWithTimestamp, defer, bind, context_WithTimeout,
    DataStream_PutEvent, publish_ctx, envelope; simpl.
  destruct (PutEvent _ _ _ _) as [[err|] o]; reflexivity.
Qed.

Lemma FlushTrace_run (h : Host) evtType payload (w : World) :
  FlushTrace h evtType payload w =
  FlushTraceWithTimestamp h evtType (time_Unix 0 (clock (outside w))) payload w.
Proof.
  destruct w; reflexivity.
Qed.

(** ** Delivery: one publish under a scoped context, swallowed failures *)

(** Run the delivery operation and split on the stream client's answer. *)
Ltac run_flush :=
  unfold exec, publish_result, publish_outside;
  rewrite FlushTraceWithTimestamp_run; simpl;
  destruct (PutEvent _ _ _ _) as [[?err|] ?o]; simpl.

Lemma FlushTraceWithTimestamp_elapsed (h : Host) evtType timestamp payload (w : World) :
  clock (outside (exec (FlushTraceWithTimestamp h evtType timestamp payload) w)) =
  clock (publish_outside h evtType timestamp payload w).
Proof. run_flush; reflexivity. Qed.

Lemma FlushTraceWithTimestamp_contexts (h : Host) evtType timestamp payload (w : World) :
  live_contexts (exec (FlushTraceWithTimestamp h evtType timestamp payload) w) =
  live_contexts w.
Proof. run_flush; reflexivity. Qed.

Lemma FlushTraceWithTimestamp_puts (h : Host) evtType timestamp payload (w : World) :
  puts (exec (FlushTraceWithTimestamp h evtType timestamp payload) w) =
  puts w ++ [(publish_ctx w, envelope h evtType timestamp payload)].
Proof. run_flush; reflexivity. Qed.

Lemma returns_unit (c : M unit) (w : World) : c w = (tt, exec c w).
Proof.
  unfold exec. destruct (c w) as [[] w']. reflexivity.
Qed.


(** C2.  For every delivery attempt, whatever the stream client does: the
    operation returns normally; the submitted-traces counter goes up by one
    exactly when the publish returned no error; after a successful publish
    nothing is logged by the host; after a failed publish (a timeout is the
    error the client returns) the only addition by the host is one warning
    carrying the error, and the counter is unchanged. *)
Theorem FlushTraceWithTimestamp_counter (h : Host) evtType timestamp payload (w : World) :
  let r := publish_result h evtType timestamp payload w in
  let o := publish_outside h evtType timestamp payload w in
  let w' := exec (FlushTraceWithTimestamp h evtType timestamp payload) w in
  FlushTraceWithTimestamp h evtType timestamp payload w = (tt, w') /\
  (meterSubmittedTraces w' = meterSubmittedTraces w + 1 <-> r = None) /\
  match r with
  | None =>
      meterSubmittedTraces w' = meterSubmittedTraces w + 1 /\
      slog (outside w') = slog o
  | Some err =>
      meterSubmittedTraces w' = meterSubmittedTraces w /\
      slog (outside w') = slog o ++ [mkLogRecord LevelWarn "Failed to put trace event payload" err]
  end.
Proof.
  intros r o w'. split; [apply returns_unit|].
  subst r o w'. run_flush.
  - split; [|split; reflexivity]. split; [lia | discriminate].
  - split; [|split; reflexivity]. split; reflexivity.
Qed.

(** ** The two capability surfaces *)

(** Every lifecycle callback is one [FlushTraceWithTimestamp] at the time
    read from the clock on entry, with the documented type and a map payload
    with the documented keys. *)
Lemma lifecycle_run (h : Host) (c : Callback) (w : World) :
  is_rpc_callback c = false ->
  exists ty m,
    invoke h c w =
      FlushTraceWithTimestamp h ty (fst (time_Now (outside w))) (AMap m) w /\
    documented_type c = Some ty /\
    dom m = documented_fields ty.
Proof.
  intros Hc.
  destruct c; try discriminate Hc; simpl;
    (eexists; eexists; split; [apply FlushTrace_run | split; reflexivity]).
Qed.

(** A notification of a handled kind is one [FlushTraceWithTimestamp] at
    the notification's own timestamp. *)
Lemma Trace_run (h : Host) (evt : option pb_TraceEvent) (w : World) :
  handled_kind (GetType evt) = true ->
  exists ty payload,
    Trace newRPCMeta h evt w =
      FlushTraceWithTimestamp h ty (time_Unix 0 (GetTimestamp evt)) payload w /\
    (ty = EventTypePublishMessage \/ ty = EventTypeRecvRPC \/
     ty = EventTypeSendRPC \/ ty = EventTypeDropRPC).
Proof.
  unfold handled_kind, Trace. intros Hk.
  destruct (GetType evt =? TraceEvent_PUBLISH_MESSAGE); [eauto 7|].
  destruct (GetType evt =? TraceEvent_RECV_RPC); [eauto 7|].
  destruct (GetType evt =? TraceEvent_SEND_RPC); [eauto 7|].
  destruct (GetType evt =? TraceEvent_DROP_RPC); [eauto 7|].
  discriminate Hk.
Qed.

Lemma Trace_unhandled (h : Host) (evt : option pb_TraceEvent) (w : World) :
  handled_kind (GetType evt) = false ->
  Trace newRPCMeta h evt w = (tt, w).
Proof.
  unfold handled_kind, Trace. intros Hk.
  destruct (GetType evt =? TraceEvent_PUBLISH_MESSAGE); [discriminate Hk|].
  destruct (GetType evt =? TraceEvent_RECV_RPC); [discriminate Hk|].
  destruct (GetType evt =? TraceEvent_SEND_RPC); [discriminate Hk|].
  destruct (GetType evt =? TraceEvent_DROP_RPC); [discriminate Hk|].
  reflexivity.
Qed.

Lemma rpc_callback_run (h : Host) (c : Callback) (w : World) :
  is_rpc_callback c = true -> invoke h c w = (tt, w).
Proof.
  destruct c; intros Hc; try discriminate Hc; reflexivity.
Qed.

(** Every entry point either leaves the world alone or is a single
    [FlushTraceWithTimestamp]. *)
Lemma enter_run (h : Host) (ep : EntryPoint) (w : World) :
  if emits ep
  then exists ty ts payload,
         enter newRPCMeta h ep w = FlushTraceWithTimestamp h ty ts payload w
  else enter newRPCMeta h ep w = (tt, w).
Proof.
  destruct ep as [c|evt]; simpl.
  - destruct (is_rpc_callback c) eqn:Hc; simpl.
    + apply rpc_callback_run, Hc.
    + destruct (lifecycle_run h c w Hc) as (ty & m & Hrun & _). eauto.
  - destruct (handled_kind (GetType evt)) eqn:Hk.
    + destruct (Trace_run h evt w Hk) as (ty & payload & Hrun & _). eauto.
    + apply Trace_unhandled, Hk.
Qed.

(** C3.  Whatever entry point of the adapter the runtime calls (any of the
    fifteen callbacks, with any remote peer among its arguments, or the
    wire-trace notification of any kind), the envelopes it hands to the
    stream client all carry the host's own identity [h.ID()] in their
    [PeerID] field; at most one envelope is handed over per call. *)
Theorem envelope_PeerID_is_host_ID (h : Host) (ep : EntryPoint) (w : World) :
  exists new : list (Context * TraceEvent),
    puts (exec (enter newRPCMeta h ep) w) = puts w ++ new /\
    (length new <= 1)%nat /\
    Forall (fun ce => PeerID (snd ce) = host_ID h) new.
Proof.
  pose proof (enter_run h ep w) as Hrun.
  destruct (emits ep).
  - destruct Hrun as (ty & ts & payload & Hrun).
    exists [(publish_ctx w, envelope h ty ts payload)].
    unfold exec. rewrite Hrun.
    split; [apply FlushTraceWithTimestamp_puts|].
    split; [simpl; lia|]. repeat constructor.
  - exists []. unfold exec. rewrite Hrun. simpl.
    split; [symmetry; apply app_nil_r|]. split; [simpl; lia | constructor].
Qed.

(** C4.  Every invocation of one of the twelve lifecycle callbacks hands
    exactly one envelope to the stream client; its [Type] is the event type
    named after the invoked method, and its payload is a map whose set of
    keys is exactly the set documented for that type in the table of section
    4.2 ([documented_fields]).  In particular the sequence number, in
    hexadecimal, is under the key [SeqNo] for ValidateMessage and under the
    key [Seq] for DeliverMessage, RejectMessage and DuplicateMessage, and
    the keys of UndeliverableMessage are [PeerID], [Topic], [MsgID] and
    [Local] only. *)
Theorem lifecycle_envelope_shape (h : Host) (c : Callback) (w : World) :
  is_rpc_callback c = false ->
  exists ctx evt m,
    puts (exec (invoke h c) w) = puts w ++ [(ctx, evt)] /\
    documented_type c = Some (Type_ evt) /\
    Payload evt = AMap m /\
    dom m = documented_fields (Type_ evt) /\
    match c with
    | CallValidateMessage msg =>
        m !! "SeqNo" = Some (AString (hex_EncodeToString (Message_GetSeqno msg))) /\
        m !! "Seq" = None
    | CallDeliverMessage msg | CallRejectMessage msg _ | CallDuplicateMessage msg =>
        m !! "Seq" = Some (AString (hex_EncodeToString (Message_GetSeqno msg))) /\
        m !! "SeqNo" = None
    | CallUndeliverableMessage _ =>
        dom m = {[ "PeerID"; "Topic"; "MsgID"; "Local" ]}
    | _ => True
    end.
Proof.
  intros Hc. unfold exec.
  destruct c; try discriminate Hc;
    cbv beta iota delta
      [invoke AddPeer RemovePeer Join Leave Graft Prune ValidateMessage
       DeliverMessage RejectMessage DuplicateMessage ThrottlePeer
       UndeliverableMessage];
    rewrite FlushTrace_run;
    (eexists; eexists; eexists;
     split; [apply FlushTraceWithTimestamp_puts | repeat split; reflexivity]).
Qed.

(** [time.Unix(0, n)] denotes the instant [n] nanoseconds after the epoch,
    with its nanosecond field normalised. *)
Lemma UnixNano_time_Unix (n : Z) : UnixNano (time_Unix 0 n) = n.
Proof.
  unfold UnixNano, time_Unix.
  destruct ((n <? 0) || (n >=? 1000000000)); [|cbn [t_sec t_nsec]; lia].
  destruct (n - Z.quot n 1000000000 * 1000000000 <? 0); cbn [t_sec t_nsec]; lia.
Qed.

Lemma time_Unix_nsec_range (n : Z) :
  0 <= t_nsec (time_Unix 0 n) < 1000000000.
Proof.
  unfold time_Unix.
  pose proof (Z.quot_rem' n 1000000000) as Hqr.
  destruct (n <? 0) eqn:Hneg; cbn [orb].
  - apply Z.ltb_lt in Hneg.
    pose proof (Z.rem_bound_pos (- n) 1000000000 ltac:(lia) ltac:(lia)) as Hb.
    rewrite Z.rem_opp_l in Hb by lia.
    destruct (n - Z.quot n 1000000000 * 1000000000 <? 0) eqn:E; cbn [t_nsec].
    + lia.
    + apply Z.ltb_ge in E. lia.
  - apply Z.ltb_ge in Hneg.
    destruct (n >=? 1000000000) eqn:Hbig; cbn [t_nsec].
    + pose proof (Z.rem_bound_pos n 1000000000 ltac:(lia) ltac:(lia)) as Hb.
      destruct (n - Z.quot n 1000000000 * 1000000000 <? 0) eqn:E; cbn [t_nsec].
      * apply Z.ltb_lt in E. lia.
      * lia.
    + rewrite Z.geb_leb in Hbig. apply Z.leb_gt in Hbig. lia.
Qed.

(** C6.  An entry point that emits hands exactly one envelope to the stream
    client.  For a lifecycle callback its [Timestamp] is [time.Now()] read
    on entry.  For a wire-trace notification of a handled kind it is
    [time.Unix(0, evt.GetTimestamp())], which denotes exactly the
    notification's nanosecond timestamp, whatever the clock shows. *)
Theorem envelope_Timestamp (h : Host) (ep : EntryPoint) (w : World) :
  emits ep = true ->
  exists ctx evt,
    puts (exec (enter newRPCMeta h ep) w) = puts w ++ [(ctx, evt)] /\
    match ep with
    | Raw _ => Timestamp evt = fst (time_Now (outside w))
    | Wire n =>
        Timestamp evt = time_Unix 0 (GetTimestamp n) /\
        UnixNano (Timestamp evt) = GetTimestamp n
    end.
Proof.
  destruct ep as [c|n]; simpl; intros He.
  - apply negb_true_iff in He.
    destruct (lifecycle_run h c w He) as (ty & m & Hrun & _).
    eexists; eexists. unfold exec. rewrite Hrun.
    split; [apply FlushTraceWithTimestamp_puts | reflexivity].
  - destruct (Trace_run h n w He) as (ty & payload & Hrun & _).
    eexists; eexists. unfold exec. rewrite Hrun.
    split; [apply FlushTraceWithTimestamp_puts|].
    split; [reflexivity | apply UnixNano_time_Unix].
Qed.

(** C8.  A wire-trace notification whose kind is none of PUBLISH_MESSAGE,
    RECV_RPC, SEND_RPC, DROP_RPC makes [Trace] return normally with the
    world exactly as it was: no envelope was handed to the stream client, no
    context was created, nothing was logged or counted. *)
Theorem Trace_ignores_other_kinds (h : Host) (evt : option pb_TraceEvent) (w : World) :
  GetType evt <> TraceEvent_PUBLISH_MESSAGE ->
  GetType evt <> TraceEvent_RECV_RPC ->
  GetType evt <> TraceEvent_SEND_RPC ->
  GetType evt <> TraceEvent_DROP_RPC ->
  Trace newRPCMeta h evt w = (tt, w) /\
  puts (exec (Trace newRPCMeta h evt) w) = puts w.
Proof.
  intros H1 H2 H3 H4.
  assert (Hk : handled_kind (GetType evt) = false).
  { unfold handled_kind.
    apply Z.eqb_neq in H1, H2, H3, H4. rewrite H1, H2, H3, H4. reflexivity. }
  unfold exec. rewrite (Trace_unhandled h evt w Hk). split; reflexivity.
Qed.

(** C10.  For every argument and every world, [RecvRPC], [SendRPC] and
    [DropRPC] return normally and leave the world exactly as it was: no
    envelope is handed to the stream client, nothing is logged or counted,
    no time passes. *)
Theorem raw_RPC_callbacks_are_noops (h : Host) (rpc : pubsub_RPC) (p : peer_ID) (w : World) :
  RecvRPC h rpc w = (tt, w) /\
  SendRPC h rpc p w = (tt, w) /\
  DropRPC h rpc p w = (tt, w).
Proof.
  repeat split.
Qed.

(** An RPC seen on the wire surface is reported once. *)
Lemma wire_RPC_reported_once (h : Host) (evt : option pb_TraceEvent) (w : World) :
  GetType evt = TraceEvent_RECV_RPC ->
  exists ctx e,
    puts (exec (Trace newRPCMeta h evt) w) = puts w ++ [(ctx, e)] /\
    Type_ e = EventTypeRecvRPC /\
    Payload e =
      ARPCMeta (newRPCMeta (GetReceivedFrom (GetRecvRPC evt))
                  (RecvRPC_GetMeta (GetRecvRPC evt))).
Proof.
  intros Hk. unfold exec, Trace. rewrite Hk. simpl.
  eexists; eexists.
  split; [apply FlushTraceWithTimestamp_puts | split; reflexivity].
Qed.

(** ** Identifiers in payloads *)

Lemma hexdigit_lower_hex (v : byte) :
  is_lower_hex (hexdigit (N.shiftr (Byte.to_N v) 4)) = true /\
  is_lower_hex (hexdigit (N.land (Byte.to_N v) 15)) = true.
Proof.
  destruct v; split; reflexivity.
Qed.

Lemma hex_EncodeToString_lower_hex (src : list byte) :
  lower_hex (hex_EncodeToString src) = true.
Proof.
  unfold lower_hex.
  induction src as [|v rest IH]; [reflexivity|].
  destruct (hexdigit_lower_hex v) as [Hhi Hlo].
  cbn [hex_EncodeToString list_ascii_of_string forallb].
  rewrite Hhi, Hlo, IH. reflexivity.
Qed.

Lemma hex_EncodeToString_length (src : list byte) :
  String.length (hex_EncodeToString src) = (2 * List.length src)%nat.
Proof.
  induction src as [|v rest IH]; [reflexivity|].
  cbn [hex_EncodeToString String.length List.length]. lia.
Qed.

(** In the payload of every lifecycle callback the message identifier and
    the sequence number are strings of lowercase hexadecimal digits. *)
Lemma lifecycle_identifiers_hex (h : Host) (c : Callback) (w : World) :
  is_rpc_callback c = false ->
  exists ty m,
    invoke h c w =
      FlushTraceWithTimestamp h ty (fst (time_Now (outside w))) (AMap m) w /\
    forall k v,
      k = "MsgID" \/ k = "Seq" \/ k = "SeqNo" ->
      m !! k = Some v ->
      exists s, v = AString s /\ lower_hex s = true.
Proof.
  intros Hc.
  destruct c; try discriminate Hc; simpl;
    (eexists; eexists; split; [apply FlushTrace_run|]);
    intros k v [-> | [-> | ->]] Hlk; simplify_map_eq;
    (eexists; split; [reflexivity | apply hex_EncodeToString_lower_hex]).
Qed.

(** The publish notification's identifier goes into the payload as the
    byte slice it is. *)
Lemma Trace_PublishMessage_payload (h : Host) (evt : option pb_TraceEvent) (w : World) :
  GetType evt = TraceEvent_PUBLISH_MESSAGE ->
  exists ctx e m,
    puts (exec (Trace newRPCMeta h evt) w) = puts w ++ [(ctx, e)] /\
    Type_ e = EventTypePublishMessage /\
    Payload e = AMap m /\
    dom m = {[ "MsgID"; "Topic" ]} /\
    m !! "MsgID" = Some (ABytes (GetMessageID (GetPublishMessage evt))).
Proof.
  intros Hk. unfold exec, Trace. rewrite Hk. simpl.
  eexists; eexists; eexists.
  split; [apply FlushTraceWithTimestamp_puts|].
  repeat split; reflexivity.
Qed.

(** ** The envelope as a stream record *)


Lemma Data_encoded (t : TraceEvent) (data : list byte) (o : Outside) :
  json_Marshal t = inl data -> Data json_Marshal t o = (data, o).
Proof.
  intros Hm. unfold Data. rewrite Hm. reflexivity.
Qed.

(** C9 (amended).  When [json.Marshal] fails on an envelope, [Data]
    writes one warning carrying the error to the log and returns a nil
    slice, without calling the marshaller again and without an error value.
    The delivery operation does not consult the encoder: given that same
    envelope it hands it to the stream client all the same, and counts it as
    submitted exactly when [PutEvent] returns no error. *)
Theorem encode_failure_not_dropped (t : TraceEvent) (err : error) (o : Outside) :
  json_Marshal t = inr err ->
  Data json_Marshal t o =
    ([], mkOutside (clock o)
           (slog o ++ [mkLogRecord LevelWarn "Failed to marshal trace event" err])
           (sink o)) /\
  forall (h : Host) (w : World),
    host_ID h = PeerID t ->
    let w' := exec (FlushTraceWithTimestamp h (Type_ t) (Timestamp t) (Payload t)) w in
    puts w' = puts w ++ [(publish_ctx w, t)] /\
    meterSubmittedTraces w' =
      meterSubmittedTraces w +
      match publish_result h (Type_ t) (Timestamp t) (Payload t) w with
      | None => 1
      | Some _ => 0
      end.
Proof.
  intros Hm. split.
  - unfold Data. rewrite Hm. reflexivity.
  - intros h w Hid w'. subst w'. split.
    + rewrite FlushTraceWithTimestamp_puts. unfold envelope. rewrite Hid.
      destruct t; reflexivity.
    + run_flush; lia.
Qed.

End Properties.

(** ** Library functions on concrete inputs *)

Example hex_EncodeToString_ab12 :
  hex_EncodeToString [xab; x12; x00; xff] = "ab1200ff".
Proof. reflexivity. Qed.

Example time_Unix_folds_nanoseconds :
  time_Unix 0 1500000000 = mkTime 1 500000000 /\
  time_Unix 0 (-1) = mkTime (-1) 999999999 /\
  time_Unix 0 (-2500000001) = mkTime (-3) 499999999.
Proof. repeat split. Qed.

Example uuid_String_groups :
  uuid_String [x01; x02; x03; x04; x05; x06; x07; x08;
               x09; x0a; x0b; x0c; x0d; x0e; x0f; x10]
  = "01020304-0506-0708-090a-0b0c0d0e0f10".
Proof. reflexivity. Qed.

(** ** Delivery on concrete stream clients *)

(** [Join] of a topic on a sink that accepts at once: one envelope with the
    host's identity, and the counter goes from 0 to 1. *)
Example Join_accepted :
  let w' := exec (Join (sample_host (timed_stream 0)) "topic-A") sample_world in
  map snd (puts w') =
    [mkTraceEvent EventTypeJoin "12D3KooWLocalNode" (mkTime 1700000000 0)
       (AMap {[ "Topic" := AString "topic-A" ]})] /\
  meterSubmittedTraces w' = 1 /\
  slog (outside w') = [] /\
  live_contexts w' = 0%nat.
Proof. vm_compute. repeat split. Qed.

(** The same on a sink that rejects: a warning, and the counter stays. *)
Example Join_rejected :
  let w' := exec (Join (sample_host rejecting_stream) "topic-A") sample_world in
  length (puts w') = 1%nat /\
  meterSubmittedTraces w' = 0 /\
  slog (outside w') =
    [mkLogRecord LevelWarn "Failed to put trace event payload" "ResourceNotFoundException"] /\
  live_contexts w' = 0%nat.
Proof. vm_compute. repeat split. Qed.

(** A sink that needs an hour behind a context-aware client: the caller is
    back once the client has noticed the deadline, with the timeout
    logged. *)
Example Join_timed_out :
  let w' := exec (Join (sample_host (timed_stream (3600 * time_Second))) "topic-A") sample_world in
  clock (outside w') - clock (outside sample_world) = 10 * time_Second + wake_up /\
  meterSubmittedTraces w' = 0 /\
  slog (outside w') =
    [mkLogRecord LevelWarn "Failed to put trace event payload" "context deadline exceeded"].
Proof. vm_compute. repeat split. Qed.


(** ** The callbacks and the wire surface on concrete inputs *)

(** A graft by a remote peer: the remote peer is in the payload, the
    envelope's own [PeerID] is the local node. *)
Example Graft_remote_peer :
  exists ctx evt m,
    puts (exec (Graft (sample_host (timed_stream 0)) "12D3KooWRemotePeer" "topic-A")
            sample_world) = [(ctx, evt)] /\
    PeerID evt = "12D3KooWLocalNode" /\
    Payload evt = AMap m /\
    m !! "PeerID" = Some (APeerID "12D3KooWRemotePeer").
Proof.
  eexists; eexists; eexists.
  split; [vm_compute; reflexivity|]. repeat split.
Qed.

(** [RejectMessage] of the message [0xAB12] on topic [t]. *)
Lemma lifecycle_envelope_shape_witness :
  is_rpc_callback (CallRejectMessage (pubsub_RPC:=unit) sample_message "invalid-signature") = false /\
  exists ctx evt m,
    puts (exec (invoke (sample_host (timed_stream 0))
                  (CallRejectMessage (pubsub_RPC:=unit) sample_message "invalid-signature"))
            sample_world) = puts sample_world ++ [(ctx, evt)] /\
    Type_ evt = EventTypeRejectMessage /\
    Payload evt = AMap m /\
    dom m = {[ "PeerID"; "Topic"; "MsgID"; "Local"; "MsgSize"; "Seq"; "Reason" ]} /\
    m !! "MsgID" = Some (AString "ab12") /\
    m !! "Reason" = Some (AString "invalid-signature").
Proof.
  split; [reflexivity|].
  destruct (lifecycle_envelope_shape (sample_host (timed_stream 0))
              (CallRejectMessage (pubsub_RPC:=unit) sample_message "invalid-signature")
              sample_world eq_refl)
    as (ctx & evt & m & Hputs & Hty & Hpay & Hdom & _).
  exists ctx, evt, m.
  split; [exact Hputs|].
  apply app_inj_tail in Hputs. destruct Hputs as [_ Heq].
  injection Heq as _ <-. simpl in Hpay. injection Hpay as <-.
  repeat split; reflexivity.
Defined.

(** A publish notification stamped [1700000000.123456789] keeps its stamp. *)
Lemma envelope_Timestamp_witness :
  emits (Wire (pubsub_RPC:=unit) sample_publish) = true /\
  exists ctx evt,
    puts (exec (enter sample_newRPCMeta (sample_host (timed_stream 0))
                  (Wire (pubsub_RPC:=unit) sample_publish)) sample_world)
      = puts sample_world ++ [(ctx, evt)] /\
    Timestamp evt = mkTime 1700000000 123456789 /\
    UnixNano (Timestamp evt) = 1700000000123456789.
Proof.
  split; [reflexivity|].
  destruct (envelope_Timestamp sample_newRPCMeta (sample_host (timed_stream 0))
              (Wire (pubsub_RPC:=unit) sample_publish) sample_world eq_refl)
    as (ctx & evt & Hputs & Hts & Hnano).
  exists ctx, evt. split; [exact Hputs|]. split; [exact Hts | exact Hnano].
Defined.

(** A GRAFT notification is not handled by [Trace]. *)
Lemma Trace_ignores_other_kinds_witness :
  GetType sample_graft <> TraceEvent_PUBLISH_MESSAGE /\
  GetType sample_graft <> TraceEvent_RECV_RPC /\
  GetType sample_graft <> TraceEvent_SEND_RPC /\
  GetType sample_graft <> TraceEvent_DROP_RPC /\
  Trace sample_newRPCMeta (sample_host rejecting_stream) sample_graft sample_world
    = (tt, sample_world).
Proof.
  assert (H1 : GetType sample_graft <> TraceEvent_PUBLISH_MESSAGE) by discriminate.
  assert (H2 : GetType sample_graft <> TraceEvent_RECV_RPC) by discriminate.
  assert (H3 : GetType sample_graft <> TraceEvent_SEND_RPC) by discriminate.
  assert (H4 : GetType sample_graft <> TraceEvent_DROP_RPC) by discriminate.
  repeat (split; [assumption|]).
  exact (proj1 (Trace_ignores_other_kinds sample_newRPCMeta
                  (sample_host rejecting_stream) sample_graft sample_world
                  H1 H2 H3 H4)).
Defined.

(** C5 on the code.  For the publish notification of the message with
    identifier [0xAB12], the payload's [MsgID] is the two raw bytes, not the
    lowercase hexadecimal string [ab12] that [ValidateMessage] puts under
    the same key for the same message. *)
Theorem Trace_PublishMessage_MsgID_not_hex :
  (exists ctx evt m,
      puts (exec (Trace sample_newRPCMeta (sample_host (timed_stream 0)) sample_publish)
              sample_world) = [(ctx, evt)] /\
      Type_ evt = EventTypePublishMessage /\
      Payload evt = AMap m /\
      m !! "MsgID" = Some (ABytes [xab; x12]) /\
      m !! "MsgID" <> Some (AString "ab12")) /\
  (exists ctx evt m,
      puts (exec (ValidateMessage (sample_host (timed_stream 0)) sample_message)
              sample_world) = [(ctx, evt)] /\
      Type_ evt = EventTypeValidateMessage /\
      Payload evt = AMap m /\
      m !! "MsgID" = Some (AString "ab12")).
Proof.
  split.
  - eexists; eexists; eexists.
    split; [vm_compute; reflexivity|].
    split; [reflexivity|]. split; [reflexivity|].
    split; [reflexivity | discriminate].
  - eexists; eexists; eexists.
    split; [vm_compute; reflexivity|].
    split; [reflexivity|]. split; reflexivity.
Qed.

(** ** Partition keys and bodies on concrete inputs *)

Example PartitionKey_generated :
  fst (PartitionKey
         (fixed_NewUUID [x01; x02; x03; x04; x05; x06; x07; x08;
                         x09; x0a; x0b; x0c; x0d; x0e; x0f; x10])
         (sample_envelope "12D3KooWNodeA") sample_outside)
  = "01020304-0506-0708-090a-0b0c0d0e0f10".
Proof. reflexivity. Qed.


(** A payload holding a channel has no encoding; the envelope still reaches
    the stream client. *)
Lemma encode_failure_not_dropped_witness :
  sample_Marshal sample_unencodable = inr "json: unsupported type: chan int" /\
  Data sample_Marshal sample_unencodable sample_outside
    = ([], mkOutside 1700000000000000000
             [mkLogRecord LevelWarn "Failed to marshal trace event"
                "json: unsupported type: chan int"]
             0%nat) /\
  host_ID (sample_host record_stream) = PeerID sample_unencodable /\
  puts (exec (FlushTraceWithTimestamp (sample_host record_stream)
                (Type_ sample_unencodable) (Timestamp sample_unencodable)
                (Payload sample_unencodable)) sample_world)
    = puts sample_world ++ [(publish_ctx sample_world, sample_unencodable)].
Proof.
  destruct (encode_failure_not_dropped sample_Marshal sample_unencodable
              "json: unsupported type: chan int" sample_outside eq_refl)
    as [HData Hflush].
  split; [reflexivity|]. split; [exact HData|]. split; [reflexivity|].
  exact (proj1 (Hflush (sample_host record_stream) sample_world eq_refl)).
Defined.

(** C9 as stated fails: with a stream client that asks the envelope for its
    body and ships what it gets, an envelope that cannot be encoded has its
    warning logged and is then accepted by the stream client and counted as
    submitted; it is not dropped. *)
Lemma unencodable_envelope_is_published :
  let w' := exec (FlushTraceWithTimestamp (sample_host record_stream)
                    EventTypeJoin (time_Unix 0 0) (AOther "chan int")) sample_world in
  sample_Marshal sample_unencodable = inr "json: unsupported type: chan int" /\
  slog (outside w') =
    [mkLogRecord LevelWarn "Failed to marshal trace event"
       "json: unsupported type: chan int"] /\
  map snd (puts w') = [sample_unencodable] /\
  sink (outside w') = 1%nat /\
  meterSubmittedTraces w' = 1 /\
  ~ (sink (outside w') = sink (outside sample_world) /\
     meterSubmittedTraces w' = meterSubmittedTraces sample_world).
Proof.
  vm_compute. repeat (split; [reflexivity|]).
  intros [H _]. discriminate H.
Qed.

(** * Runs of the adapter *)

Section Runs.

Context {RPCMeta pb_RPCMeta pubsub_RPC Sink : Type}.
Variable newRPCMeta : list byte -> option pb_RPCMeta -> RPCMeta.

Abbreviation Host := (@Host RPCMeta Sink).
Abbreviation World := (@World RPCMeta Sink).
Abbreviation EntryPoint := (@EntryPoint pb_RPCMeta pubsub_RPC).

Lemma FlushTraceWithTimestamp_meter (h : Host) evtType timestamp payload (w : World) :
  meterSubmittedTraces (exec (FlushTraceWithTimestamp h evtType timestamp payload) w) =
  meterSubmittedTraces w +
  match publish_result h evtType timestamp payload w with
  | None => 1
  | Some _ => 0
  end.
Proof.
  unfold exec, publish_result. rewrite FlushTraceWithTimestamp_run. simpl.
  destruct (PutEvent _ _ _ _) as [[err|] o]; simpl; lia.
Qed.

(** One entry: either nothing happens, or one publish is made under the
    context created on entry. *)
Lemma enter_step (h : Host) (ep : EntryPoint) (w : World) :
  let w' := exec (enter newRPCMeta h ep) w in
  if emits ep
  then exists ty ts payload,
         puts w' = puts w ++ [(publish_ctx w, envelope h ty ts payload)] /\
         live_contexts w' = live_contexts w /\
         meterSubmittedTraces w' =
           meterSubmittedTraces w +
           match publish_result h ty ts payload w with None => 1 | Some _ => 0 end /\
         clock (outside w') = clock (publish_outside h ty ts payload w)
  else w' = w.
Proof.
  intros w'. subst w'. unfold exec.
  pose proof (enter_run newRPCMeta h ep w) as Hrun.
  destruct (emits ep).
  - destruct Hrun as (ty & ts & payload & ->).
    exists ty, ts, payload.
    split; [apply FlushTraceWithTimestamp_puts|].
    split; [apply FlushTraceWithTimestamp_contexts|].
    split; [apply FlushTraceWithTimestamp_meter | apply FlushTraceWithTimestamp_elapsed].
  - rewrite Hrun. reflexivity.
Qed.

Lemma run_all_cons (h : Host) (ep : EntryPoint) (eps : list EntryPoint) (w : World) :
  exec (run_all newRPCMeta h (ep :: eps)) w =
  exec (run_all newRPCMeta h eps) (exec (enter newRPCMeta h ep) w).
Proof.
  unfold exec. simpl. unfold bind.
  destruct (enter newRPCMeta h ep w) as [[] w1]. reflexivity.
Qed.

Lemma count_emitting_cons (ep : EntryPoint) (eps : list EntryPoint) :
  count_emitting (ep :: eps) =
  ((if emits ep then 1 else 0) + count_emitting eps)%nat.
Proof.
  unfold count_emitting. simpl. destruct (emits ep); reflexivity.
Qed.

(** The publish calls of a run, one per reported entry. *)
Lemma run_all_extends_puts (h : Host) (eps : list EntryPoint) (w : World) :
  exists new : list (Context * TraceEvent),
    puts (exec (run_all newRPCMeta h eps) w) = puts w ++ new /\
    length new = count_emitting eps /\
    Forall (fun ce => PeerID (snd ce) = host_ID h /\ Deadline (fst ce) <> None) new.
Proof.
  revert w. induction eps as [|ep eps IH]; intros w.
  - exists []. split; [symmetry; apply app_nil_r|]. split; [reflexivity | constructor].
  - rewrite run_all_cons, count_emitting_cons.
    pose proof (enter_step h ep w) as Hstep. cbv zeta in Hstep.
    destruct (IH (exec (enter newRPCMeta h ep) w)) as (new & Hputs & Hlen & Hall).
    destruct (emits ep).
    + destruct Hstep as (ty & ts & payload & Hp & _).
      exists ((publish_ctx w, envelope h ty ts payload) :: new).
      rewrite Hputs, Hp, <- app_assoc. split; [reflexivity|].
      split; [simpl; lia|].
      constructor; [split; [reflexivity | discriminate] | exact Hall].
    + rewrite Hstep in Hputs |- *. exists new.
      split; [exact Hputs|]. split; [simpl; exact Hlen | exact Hall].
Qed.

(** X1.  Over any run of the adapter and for any stream client, the
    envelopes handed to the stream client earlier are kept, exactly one
    publish call is added for each entry that is a lifecycle callback or a
    notification of a handled kind and none for the others, and every added
    call carries the host's own identity in the envelope and a context with
    a deadline. *)
Theorem run_all_puts (h : Host) (eps : list EntryPoint) (w : World) :
  exists new : list (Context * TraceEvent),
    puts (exec (run_all newRPCMeta h eps) w) = puts w ++ new /\
    length new = count_emitting eps /\
    Forall (fun ce => PeerID (snd ce) = host_ID h /\ Deadline (fst ce) <> None) new.
Proof.
  exact (run_all_extends_puts h eps w).
Qed.

(** X2.  Over any run of the adapter and for any stream client, the number
    of context timers that are created and not released is the same after
    the run as before it. *)
Theorem run_all_releases_contexts (h : Host) (eps : list EntryPoint) (w : World) :
  live_contexts (exec (run_all newRPCMeta h eps) w) = live_contexts w.
Proof.
  revert w. induction eps as [|ep eps IH]; intros w; [reflexivity|].
  rewrite run_all_cons, IH.
  pose proof (enter_step h ep w) as Hstep. cbv zeta in Hstep.
  destruct (emits ep).
  - destruct Hstep as (ty & ts & payload & _ & Hl & _). exact Hl.
  - rewrite Hstep. reflexivity.
Qed.

(** X3.  Over any run of the adapter and for any stream client, the
    submitted-traces counter never goes down and goes up by at most the
    number of publish calls made. *)
Theorem run_all_counter_bounds (h : Host) (eps : list EntryPoint) (w : World) :
  meterSubmittedTraces w <= meterSubmittedTraces (exec (run_all newRPCMeta h eps) w)
    <= meterSubmittedTraces w + Z.of_nat (count_emitting eps).
Proof.
  revert w. induction eps as [|ep eps IH]; intros w.
  - unfold exec, count_emitting. simpl. lia.
  - rewrite run_all_cons, count_emitting_cons.
    pose proof (enter_step h ep w) as Hstep. cbv zeta in Hstep.
    specialize (IH (exec (enter newRPCMeta h ep) w)).
    destruct (emits ep).
    + destruct Hstep as (ty & ts & payload & _ & _ & Hm & _).
      rewrite Hm in IH.
      destruct (publish_result h ty ts payload w); lia.
    + rewrite Hstep in IH |- *. lia.
Qed.

(** X4.  With a stream client that accepts every record, the counter after
    a run is the counter before it plus the number of entries that are
    lifecycle callbacks or notifications of a handled kind. *)
Theorem run_all_counter_accepting (h : Host) (eps : list EntryPoint) (w : World) :
  always_accepts (DataStream (cfg h)) ->
  meterSubmittedTraces (exec (run_all newRPCMeta h eps) w) =
  meterSubmittedTraces w + Z.of_nat (count_emitting eps).
Proof.
  intros Hacc. revert w. induction eps as [|ep eps IH]; intros w.
  - unfold exec, count_emitting. simpl. lia.
  - rewrite run_all_cons, count_emitting_cons, IH.
    pose proof (enter_step h ep w) as Hstep. cbv zeta in Hstep.
    destruct (emits ep).
    + destruct Hstep as (ty & ts & payload & _ & _ & Hm & _).
      rewrite Hm. unfold publish_result. rewrite Hacc. lia.
    + rewrite Hstep. lia.
Qed.

(** X5.  With a stream client that fails on every record (a sink that is
    permanently unreachable), the counter is the same after any run as
    before it, while every publish is still attempted. *)
Theorem run_all_counter_failing (h : Host) (eps : list EntryPoint) (w : World) :
  always_fails (DataStream (cfg h)) ->
  meterSubmittedTraces (exec (run_all newRPCMeta h eps) w) = meterSubmittedTraces w /\
  length (puts (exec (run_all newRPCMeta h eps) w)) =
    (length (puts w) + count_emitting eps)%nat.
Proof.
  intros Hfail. split.
  - revert w. induction eps as [|ep eps IH]; intros w; [reflexivity|].
    rewrite run_all_cons, IH.
    pose proof (enter_step h ep w) as Hstep. cbv zeta in Hstep.
    destruct (emits ep).
    + destruct Hstep as (ty & ts & payload & _ & _ & Hm & _).
      rewrite Hm. unfold publish_result.
      destruct (fst (PutEvent _ _ _ _)) eqn:E; [lia|].
      exfalso. exact (Hfail _ _ _ E).
    + rewrite Hstep. reflexivity.
  - destruct (run_all_extends_puts h eps w) as (new & Hputs & Hlen & _).
    rewrite Hputs, length_app, Hlen. reflexivity.
Qed.

End Runs.

(** * Identifiers and payloads across records *)

Lemma hex_decode_byte (v : byte) :
  match fromHexChar (hexdigit (N.shiftr (Byte.to_N v) 4)),
        fromHexChar (hexdigit (N.land (Byte.to_N v) 15)) with
  | Some a, Some b => Byte.of_N (N.lor (N.shiftl a 4) b)
  | _, _ => None
  end = Some v.
Proof.
  destruct v; reflexivity.
Qed.

Lemma hex_DecodeString_EncodeToString (src : list byte) :
  hex_DecodeString (hex_EncodeToString src) = Some src.
Proof.
  induction src as [|v rest IH]; [reflexivity|].
  cbn [hex_EncodeToString hex_DecodeString].
  pose proof (hex_decode_byte v) as Hv.
  destruct (fromHexChar (hexdigit (N.shiftr (Byte.to_N v) 4))) as [a|]; [|discriminate Hv].
  destruct (fromHexChar (hexdigit (N.land (Byte.to_N v) 15))) as [b|]; [|discriminate Hv].
  rewrite Hv, IH. reflexivity.
Qed.

Lemma hex_EncodeToString_inj (a b : list byte) :
  hex_EncodeToString a = hex_EncodeToString b -> a = b.
Proof.
  intros Heq.
  pose proof (hex_DecodeString_EncodeToString a) as Ha.
  rewrite Heq, hex_DecodeString_EncodeToString in Ha. congruence.
Qed.

Lemma bytes_of_string_inj (a b : string) :
  bytes_of_string a = bytes_of_string b -> a = b.
Proof.
  unfold bytes_of_string. intros Heq.
  rewrite <- (string_of_list_byte_of_string a), <- (string_of_list_byte_of_string b).
  rewrite Heq. reflexivity.
Qed.

Lemma bytes_of_string_length (a : string) :
  length (bytes_of_string a) = String.length a.
Proof.
  unfold bytes_of_string, list_byte_of_string.
  induction a as [|c a IH]; [reflexivity|].
  cbn [list_ascii_of_string List.map length String.length]. rewrite IH. reflexivity.
Qed.

Section Envelopes.

Context {RPCMeta pb_RPCMeta pubsub_RPC Sink : Type}.
Variable newRPCMeta : list byte -> option pb_RPCMeta -> RPCMeta.

Abbreviation Host := (@Host RPCMeta Sink).
Abbreviation World := (@World RPCMeta Sink).
Abbreviation Callback := (@Callback pubsub_RPC).
Abbreviation EntryPoint := (@EntryPoint pb_RPCMeta pubsub_RPC).

Lemma last_payload_flush (h : Host) evtType timestamp m (w : World) :
  last_payload (exec (FlushTraceWithTimestamp h evtType timestamp (AMap m)) w) = Some m.
Proof.
  unfold last_payload. rewrite FlushTraceWithTimestamp_puts, last_snoc. reflexivity.
Qed.

(** Unfold a lifecycle callback down to its payload map. *)
Ltac callback_payload :=
  unfold exec;
  cbv beta iota delta
    [invoke AddPeer RemovePeer Join Leave Graft Prune ValidateMessage
     DeliverMessage RejectMessage DuplicateMessage ThrottlePeer
     UndeliverableMessage];
  rewrite ?FlushTrace_run;
  repeat match goal with
    | |- context [last_payload (snd (FlushTraceWithTimestamp ?h ?ty ?ts (AMap ?m) ?w))] =>
        change (snd (FlushTraceWithTimestamp h ty ts (AMap m) w))
          with (exec (FlushTraceWithTimestamp h ty ts (AMap m)) w);
        rewrite (last_payload_flush h ty ts m w)
    end.

(** What the five message callbacks have in common. *)
Lemma message_callback_payload (h : Host) (c : Callback) (msg : Message) (w : World) :
  callback_message c = Some msg ->
  exists m,
    last_payload (exec (invoke h c) w) = Some m /\
    m !! "MsgID" = Some (AString (hex_EncodeToString (bytes_of_string (ID msg)))) /\
    m !! "PeerID" = Some (APeerID (ReceivedFrom msg)) /\
    m !! "Topic" = Some (AString (Message_GetTopic msg)) /\
    m !! "Local" = Some (ABool (Local msg)) /\
    forall k v,
      k = "Seq" \/ k = "SeqNo" -> m !! k = Some v ->
      v = AString (hex_EncodeToString (Message_GetSeqno msg)).
Proof.
  intros Hc.
  destruct c; try discriminate Hc; injection Hc as ->; callback_payload;
    (eexists; split; [reflexivity|]; repeat (split; [reflexivity|]));
    intros k v [-> | ->] Hlk; simplify_map_eq; reflexivity.
Qed.

(** X7.  In the payload of each of the five message callbacks, decoding
    the [MsgID] string with [hex.DecodeString] gives back the bytes of the
    message's [ID], the string has two characters per byte, and the same
    holds for the sequence number under [Seq] or [SeqNo] when the payload
    has that key. *)
Theorem message_identifiers_round_trip (h : Host) (c : Callback) (msg : Message) (w : World) :
  callback_message c = Some msg ->
  exists m s,
    last_payload (exec (invoke h c) w) = Some m /\
    m !! "MsgID" = Some (AString s) /\
    hex_DecodeString s = Some (bytes_of_string (ID msg)) /\
    String.length s = (2 * String.length (ID msg))%nat /\
    forall k v,
      k = "Seq" \/ k = "SeqNo" -> m !! k = Some v ->
      exists s', v = AString s' /\
                 hex_DecodeString s' = Some (Message_GetSeqno msg).
Proof.
  intros Hc.
  destruct (message_callback_payload h c msg w Hc) as (m & Hm & Hid & _ & _ & _ & Hseq).
  exists m, (hex_EncodeToString (bytes_of_string (ID msg))).
  split; [exact Hm|]. split; [exact Hid|].
  split; [apply hex_DecodeString_EncodeToString|].
  split.
  - rewrite hex_EncodeToString_length, bytes_of_string_length. reflexivity.
  - intros k v Hk Hlk. rewrite (Hseq k v Hk Hlk).
    eexists. split; [reflexivity | apply hex_DecodeString_EncodeToString].
Qed.

(** X8.  Message identifiers are comparable across records: for any two
    invocations of message callbacks (of the same or of different methods,
    on any hosts, at any time), the [MsgID] values of the two payloads are
    equal exactly when the two messages have the same [ID]. *)
Theorem MsgID_comparable (h1 h2 : Host) (c1 c2 : Callback) (msg1 msg2 : Message)
    (w1 w2 : World) (m1 m2 : gmap string any) :
  callback_message c1 = Some msg1 ->
  callback_message c2 = Some msg2 ->
  last_payload (exec (invoke h1 c1) w1) = Some m1 ->
  last_payload (exec (invoke h2 c2) w2) = Some m2 ->
  (m1 !! "MsgID" = m2 !! "MsgID" <-> ID msg1 = ID msg2).
Proof.
  intros Hc1 Hc2 Hm1 Hm2.
  destruct (message_callback_payload h1 c1 msg1 w1 Hc1) as (m1' & Hm1' & Hid1 & _).
  destruct (message_callback_payload h2 c2 msg2 w2 Hc2) as (m2' & Hm2' & Hid2 & _).
  rewrite Hm1 in Hm1'. injection Hm1' as <-.
  rewrite Hm2 in Hm2'. injection Hm2' as <-.
  rewrite Hid1, Hid2. split.
  - intros Heq. injection Heq as Heq.
    apply bytes_of_string_inj, hex_EncodeToString_inj, Heq.
  - intros ->. reflexivity.
Qed.

(** X9.  For the same message, the payloads of the message callbacks
    differ only as follows: DuplicateMessage's is DeliverMessage's;
    RejectMessage's is DeliverMessage's with [Reason] added;
    ValidateMessage's is DeliverMessage's with the value of [Seq] moved to
    [SeqNo]; UndeliverableMessage's is DeliverMessage's without [MsgSize]
    and [Seq]. *)
Theorem message_payloads_related (h : Host) (msg : Message) (reason : string) (w : World) :
  exists deliver : gmap string any,
    last_payload (exec (DeliverMessage h msg) w) = Some deliver /\
    last_payload (exec (DuplicateMessage h msg) w) = Some deliver /\
    last_payload (exec (RejectMessage h msg reason) w) =
      Some (<["Reason" := AString reason]> deliver) /\
    (exists seq,
        deliver !! "Seq" = Some seq /\
        last_payload (exec (ValidateMessage h msg) w) =
          Some (<["SeqNo" := seq]> (delete "Seq" deliver))) /\
    last_payload (exec (UndeliverableMessage h msg) w) =
      Some (delete "Seq" (delete "MsgSize" deliver)).
Proof.
  eexists. split; [callback_payload; reflexivity|].
  split; [callback_payload; reflexivity|].
  split; [callback_payload; reflexivity|].
  split.
  - eexists. split; [reflexivity|]. callback_payload. reflexivity.
  - callback_payload. reflexivity.
Qed.

End Envelopes.

(** * Order and independence of the envelopes *)

Section Order.

Context {RPCMeta pb_RPCMeta pubsub_RPC Sink : Type}.
Variable newRPCMeta : list byte -> option pb_RPCMeta -> RPCMeta.

Abbreviation Host := (@Host RPCMeta Sink).
Abbreviation World := (@World RPCMeta Sink).
Abbreviation EntryPoint := (@EntryPoint pb_RPCMeta pubsub_RPC).

(** One entry, with the envelope it hands over written out. *)
Lemma enter_envelope (h : Host) (ep : EntryPoint) (w : World) :
  match reported_type ep with
  | Some ty =>
      emits ep = true /\
      exists payload,
        enter newRPCMeta h ep w =
        FlushTraceWithTimestamp h ty
          match ep with
          | Raw _ => time_Unix 0 (clock (outside w))
          | Wire evt => time_Unix 0 (GetTimestamp evt)
          end payload w
  | None => emits ep = false
  end.
Proof.
  destruct ep as [c|evt]; simpl.
  - destruct c; simpl; try reflexivity;
      (split; [reflexivity|]; eexists; apply FlushTrace_run).
  - unfold documented_kind, handled_kind, Trace.
    destruct (GetType evt =? TraceEvent_PUBLISH_MESSAGE); [simpl; eauto|].
    destruct (GetType evt =? TraceEvent_RECV_RPC); [simpl; eauto|].
    destruct (GetType evt =? TraceEvent_SEND_RPC); [simpl; eauto|].
    destruct (GetType evt =? TraceEvent_DROP_RPC); [simpl; eauto|].
    reflexivity.
Qed.

(** X10.  Over any run of the adapter and for any stream client, the
    envelopes are handed to the stream client in the order of the entries,
    and their types are, in that order, the types documented for the
    entries that are to be reported: the method's own type for a lifecycle
    callback, PublishMessage, RecvRPC, SendRPC or DropRPC for a
    notification of the kind of that name, and nothing for the raw RPC
    callbacks and for notifications of other kinds. *)
Theorem run_all_order (h : Host) (eps : list EntryPoint) (w : World) :
  exists new : list (Context * TraceEvent),
    puts (exec (run_all newRPCMeta h eps) w) = puts w ++ new /\
    map (fun ce => Type_ (snd ce)) new = omap reported_type eps.
Proof.
  revert w. induction eps as [|ep eps IH]; intros w.
  - exists []. split; [symmetry; apply app_nil_r | reflexivity].
  - rewrite run_all_cons.
    destruct (IH (exec (enter newRPCMeta h ep) w)) as (new & Hputs & Htypes).
    pose proof (enter_envelope h ep w) as Hep.
    cbn [omap list_omap]. destruct (reported_type ep) as [ty|].
    + destruct Hep as (_ & payload & Hrun).
      assert (Hp : exists ts,
                 puts (exec (enter newRPCMeta h ep) w) =
                 puts w ++ [(publish_ctx w, envelope h ty ts payload)]).
      { eexists. unfold exec. rewrite Hrun. apply FlushTraceWithTimestamp_puts. }
      destruct Hp as (ts & Hp).
      exists ((publish_ctx w, envelope h ty ts payload) :: new).
      rewrite Hputs, Hp, <- app_assoc.
      split; [reflexivity|]. simpl. rewrite Htypes. reflexivity.
    + pose proof (enter_step newRPCMeta h ep w) as Hstep. cbv zeta in Hstep.
      rewrite Hep in Hstep. rewrite Hstep in Hputs. rewrite Hstep.
      exists new. split; assumption.
Qed.

(** X12.  The envelope handed over for an entry depends only on the host's
    identity, on the entry and, for a lifecycle callback, on the clock
    reading on entry: two hosts with the same identity, with any stream
    clients, counters, logs and histories, hand over equal envelopes; for a
    wire notification the clock readings may differ as well. *)
Theorem envelope_independent_of_world (h1 h2 : Host) (ep : EntryPoint) (w1 w2 : World) :
  host_ID h1 = host_ID h2 ->
  emits ep = true ->
  match ep with
  | Raw _ => clock (outside w1) = clock (outside w2)
  | Wire _ => True
  end ->
  exists evt,
    snd <$> last (puts (exec (enter newRPCMeta h1 ep) w1)) = Some evt /\
    snd <$> last (puts (exec (enter newRPCMeta h2 ep) w2)) = Some evt.
Proof.
  intros Hid He Hclock.
  destruct ep as [c|evt]; simpl in *.
  - destruct c; try discriminate He;
      cbv beta iota delta
        [invoke AddPeer RemovePeer Join Leave Graft Prune ValidateMessage
         DeliverMessage RejectMessage DuplicateMessage ThrottlePeer
         UndeliverableMessage];
      unfold exec; rewrite !FlushTrace_run;
      match goal with
      | |- context [snd (FlushTraceWithTimestamp h1 ?ty ?ts ?p w1)] =>
          pose proof (FlushTraceWithTimestamp_puts h1 ty ts p w1) as H1
      end;
      match goal with
      | |- context [snd (FlushTraceWithTimestamp h2 ?ty ?ts ?p w2)] =>
          pose proof (FlushTraceWithTimestamp_puts h2 ty ts p w2) as H2
      end;
      unfold exec in H1, H2; rewrite H1, H2, !last_snoc;
      unfold envelope; rewrite Hid, Hclock;
      (eexists; split; reflexivity).
  - unfold handled_kind in He. unfold Trace, exec.
    destruct (GetType evt =? TraceEvent_PUBLISH_MESSAGE);
      [|destruct (GetType evt =? TraceEvent_RECV_RPC);
        [|destruct (GetType evt =? TraceEvent_SEND_RPC);
          [|destruct (GetType evt =? TraceEvent_DROP_RPC); [|discriminate He]]]];
      match goal with
      | |- context [snd (FlushTraceWithTimestamp h1 ?ty ?ts ?p w1)] =>
          pose proof (FlushTraceWithTimestamp_puts h1 ty ts p w1) as H1
      end;
      match goal with
      | |- context [snd (FlushTraceWithTimestamp h2 ?ty ?ts ?p w2)] =>
          pose proof (FlushTraceWithTimestamp_puts h2 ty ts p w2) as H2
      end;
      unfold exec in H1, H2; rewrite H1, H2, !last_snoc;
      unfold envelope; rewrite Hid;
      (eexists; split; reflexivity).
Qed.

(** X13.  A notification that is nil or has no kind set is treated as a
    publish notification: one envelope of type PublishMessage is handed
    over, stamped with the notification's timestamp (the epoch when that is
    absent too), with the identifier bytes of the publish body under
    [MsgID]; when the publish body is absent the payload is an empty
    identifier and an empty topic. *)
Theorem Trace_absent_kind (h : Host) (evt : option pb_TraceEvent) (w : World) :
  match evt with Some e => te_Type e = None | None => True end ->
  exists ctx e m,
    puts (exec (Trace newRPCMeta h evt) w) = puts w ++ [(ctx, e)] /\
    Type_ e = EventTypePublishMessage /\
    Timestamp e = time_Unix 0 (GetTimestamp evt) /\
    Payload e = AMap m /\
    m !! "MsgID" = Some (ABytes (GetMessageID (GetPublishMessage evt))) /\
    (GetPublishMessage evt = None ->
     m = {[ "MsgID" := ABytes []; "Topic" := AString "" ]}) /\
    (evt = None -> Timestamp e = mkTime 0 0).
Proof.
  intros Hk.
  assert (Hty : GetType evt = TraceEvent_PUBLISH_MESSAGE).
  { destruct evt as [e|]; [simpl; rewrite Hk|]; reflexivity. }
  unfold exec, Trace. rewrite Hty. simpl.
  eexists; eexists; eexists.
  split; [apply FlushTraceWithTimestamp_puts|].
  repeat (split; [reflexivity|]). split.
  - intros ->. reflexivity.
  - intros ->. reflexivity.
Qed.

End Order.

(** * Runs and envelopes on concrete inputs *)

Lemma stubborn_stream_always_accepts (latency : Duration) :
  always_accepts (stubborn_stream latency).
Proof.
  intros ctx evt o. reflexivity.
Qed.

Lemma rejecting_stream_always_fails : always_fails rejecting_stream.
Proof.
  intros ctx evt o. discriminate.
Qed.

(** Three of the five entries of [sample_run] are reported. *)
Example sample_run_types :
  omap reported_type sample_run =
    [EventTypeJoin; EventTypePublishMessage; EventTypeRejectMessage] /\
  count_emitting sample_run = 3%nat.
Proof. split; reflexivity. Qed.

(** The run on a sink that accepts at once: the counter goes from 0 to 3. *)
Lemma run_all_counter_accepting_witness :
  always_accepts (DataStream (cfg (sample_host (stubborn_stream 0)))) /\
  meterSubmittedTraces
    (exec (run_all sample_newRPCMeta (sample_host (stubborn_stream 0)) sample_run)
       sample_world) = 3.
Proof.
  split; [apply stubborn_stream_always_accepts|].
  exact (run_all_counter_accepting sample_newRPCMeta
           (sample_host (stubborn_stream 0)) sample_run sample_world
           (stubborn_stream_always_accepts 0)).
Defined.

(** The run on a sink that refuses everything: three attempts, counter 0. *)
Lemma run_all_counter_failing_witness :
  always_fails (DataStream (cfg (sample_host rejecting_stream))) /\
  meterSubmittedTraces
    (exec (run_all sample_newRPCMeta (sample_host rejecting_stream) sample_run)
       sample_world) = 0 /\
  length (puts (exec (run_all sample_newRPCMeta (sample_host rejecting_stream) sample_run)
                  sample_world)) = 3%nat.
Proof.
  split; [apply rejecting_stream_always_fails|].
  exact (run_all_counter_failing sample_newRPCMeta
           (sample_host rejecting_stream) sample_run sample_world
           rejecting_stream_always_fails).
Defined.

(** The message [0xAB12] with sequence number 42, rejected. *)
Lemma message_identifiers_round_trip_witness :
  callback_message (CallRejectMessage (pubsub_RPC:=unit) sample_message "invalid-signature")
    = Some sample_message /\
  exists m s,
    last_payload (exec (invoke (sample_host (timed_stream 0))
                          (CallRejectMessage (pubsub_RPC:=unit) sample_message
                             "invalid-signature"))
                    sample_world) = Some m /\
    m !! "MsgID" = Some (AString s) /\
    hex_DecodeString s = Some [xab; x12] /\
    String.length s = 4%nat.
Proof.
  split; [reflexivity|].
  destruct (message_identifiers_round_trip (sample_host (timed_stream 0))
              (CallRejectMessage (pubsub_RPC:=unit) sample_message "invalid-signature")
              sample_message sample_world eq_refl)
    as (m & s & Hm & Hid & Hdec & Hlen & _).
  exists m, s. repeat split; assumption.
Defined.

(** The same message validated on one host and found a duplicate on
    another. *)
Lemma MsgID_comparable_witness :
  exists m1 m2,
    callback_message (CallValidateMessage (pubsub_RPC:=unit) sample_message)
      = Some sample_message /\
    callback_message (CallDuplicateMessage (pubsub_RPC:=unit) sample_message)
      = Some sample_message /\
    last_payload (exec (invoke (sample_host (timed_stream 0))
                          (CallValidateMessage (pubsub_RPC:=unit) sample_message))
                    sample_world) = Some m1 /\
    last_payload (exec (invoke (sample_host rejecting_stream)
                          (CallDuplicateMessage (pubsub_RPC:=unit) sample_message))
                    sample_world) = Some m2 /\
    (m1 !! "MsgID" = m2 !! "MsgID" <-> ID sample_message = ID sample_message).
Proof.
  eexists; eexists.
  split; [reflexivity|]. split; [reflexivity|].
  split; [reflexivity|]. split; [reflexivity|].
  exact (MsgID_comparable (sample_host (timed_stream 0)) (sample_host rejecting_stream)
           (CallValidateMessage (pubsub_RPC:=unit) sample_message)
           (CallDuplicateMessage (pubsub_RPC:=unit) sample_message)
           sample_message sample_message sample_world sample_world _ _
           eq_refl eq_refl eq_refl eq_refl).
Defined.

(** The publish notification on an accepting and on a refusing host. *)
Lemma envelope_independent_of_world_witness :
  host_ID (sample_host (timed_stream 0)) = host_ID (sample_host rejecting_stream) /\
  emits (Wire (pubsub_RPC:=unit) sample_publish) = true /\
  exists evt,
    snd <$> last (puts (exec (enter sample_newRPCMeta (sample_host (timed_stream 0))
                                (Wire (pubsub_RPC:=unit) sample_publish)) sample_world))
      = Some evt /\
    snd <$> last (puts (exec (enter sample_newRPCMeta (sample_host rejecting_stream)
                                (Wire (pubsub_RPC:=unit) sample_publish)) sample_world))
      = Some evt.
Proof.
  split; [reflexivity|]. split; [reflexivity|].
  exact (envelope_independent_of_world sample_newRPCMeta
           (sample_host (timed_stream 0)) (sample_host rejecting_stream)
           (Wire (pubsub_RPC:=unit) sample_publish) sample_world sample_world
           eq_refl eq_refl I).
Defined.

(** A notification that carries a timestamp and nothing else. *)
Lemma Trace_absent_kind_witness :
  match sample_untyped with Some e => te_Type e = None | None => True end /\
  exists ctx e,
    puts (exec (Trace sample_newRPCMeta (sample_host (timed_stream 0)) sample_untyped)
            sample_world)
      = puts sample_world ++ [(ctx, e)] /\
    Type_ e = EventTypePublishMessage /\
    Timestamp e = mkTime 1700000000 123456789 /\
    Payload e = AMap {[ "MsgID" := ABytes []; "Topic" := AString "" ]}.
Proof.
  split; [reflexivity|].
  destruct (Trace_absent_kind sample_newRPCMeta (sample_host (timed_stream 0))
              sample_untyped sample_world eq_refl)
    as (ctx & e & m & Hputs & Hty & Hts & Hpay & _ & Hm & _).
  exists ctx, e. split; [exact Hputs|]. split; [exact Hty|].
  split; [exact Hts|]. rewrite Hpay, (Hm eq_refl). reflexivity.
Defined.
